(** * A shallow embedding of llm-context's context assembly, command
    pipeline and project setup (llm_context/context_generator.py,
    llm_context/cmd_pipeline.py, llm_context/project_setup.py). *)

From Stdlib Require Import String Ascii.
From stdpp Require Import base list gmap strings.

Open Scope string_scope.

(** ** Context collection (context_generator.py) *)
Module ContextGen.

(** A dict [{"path": rel_path, "content": content}] built by
    [ContextCollector.files]. *)
Record FileRec := mkFileRec { fr_path : string; fr_content : string }.

(** [llm_context.highlighter.parser.Source(rel_path, content)]. *)
Record Source := mkSource { src_rel : string; src_content : string }.

(** An outline record [(relativePath, outlineText)] as produced by the
    outline engine. *)
Record OutlineRecord := mkOutlineRecord { or_path : string; or_text : string }.

(** [llm_context.state.FileSelection]: the fields used by
    [ContextGenerator.create]. *)
Record FileSelection := mkFileSelection {
  full_files : list string;
  outline_files : list string
}.

(** Python truthiness of [to_language(f)], which is a language name or
    [None]: [None] and [""] are falsy. *)
Definition py_truthy (o : option string) : bool :=
  match o with
  | Some s => negb (String.eqb s "")
  | None => false
  end.

Section Collector.

(** [to_language] (highlighter/language_mapping.py): path to language
    name, [None] for an unknown suffix. *)
Variable to_language : string -> option string.
(** [PathConverter.to_absolute] converts each relative path in turn. *)
Variable to_abs_path : string -> string.
(** [safe_read_file]: the file's text, or [None] when it cannot be read. *)
Variable safe_read_file : string -> option string.
(** The per-file outline of a file with a given language tag; [None]
    stands for an internal parser fault. *)
Variable outline_text : string -> string -> string -> option string.

Definition to_absolute (rel_paths : list string) : list string :=
  map to_abs_path rel_paths.

(** Modelled from the spec: [generate_outlines] (highlighter/outliner.py)
    is not among the sources. Following the OutlineEngine section, each
    source with a language tag yields one record, in input order, whose
    text is empty when the parser faults; sources with no tag yield none. *)
Definition generate_outlines (sources : list Source) : list OutlineRecord :=
  omap (fun s =>
          match to_language (src_rel s) with
          | Some tag =>
              Some (mkOutlineRecord (src_rel s)
                      (default "" (outline_text tag (src_rel s) (src_content s))))
          | None => None
          end) sources.

(** [ContextCollector.files]. *)
Definition files (rel_paths : list string) : list FileRec :=
  let abs_paths := to_absolute rel_paths in
  omap (fun '(rel_path, abs_path) =>
          match safe_read_file abs_path with
          | Some content => Some (mkFileRec rel_path content)
          | None => None
          end) (zip rel_paths abs_paths).

(** [ContextCollector.outlines]. *)
Definition outlines (rel_paths : list string) : list OutlineRecord :=
  let abs_paths := to_absolute rel_paths in
  let source_set :=
    omap (fun '(rel, abs_path) =>
            match safe_read_file abs_path with
            | Some content => Some (mkSource rel content)
            | None => None
            end) (zip rel_paths abs_paths) in
  generate_outlines source_set.

(** The fields of [ContextGenerator] computed by [ContextGenerator.create]. *)
Record ContextGenerator := mkContextGenerator {
  full_rel : list string;
  full_abs : list string;
  outline_rel : list string;
  outline_abs : list string
}.

(** [ContextGenerator.create]. *)
Definition create (sel_files : FileSelection) : ContextGenerator :=
  let full_rel := full_files sel_files in
  let full_abs := to_absolute full_rel in
  let outline_rel := filter (fun f => py_truthy (to_language f) = true)
                       (outline_files sel_files) in
  let outline_abs := to_absolute outline_rel in
  mkContextGenerator full_rel full_abs outline_rel outline_abs.

(** The highlights of [ContextGenerator.context]. *)
Definition highlights (g : ContextGenerator) : list OutlineRecord :=
  outlines (outline_rel g).

End Collector.

(** ** Sampling of not fully included files *)

(** Python's [<] on [str]: lexicographic on code points. *)
Fixpoint str_ltb (s1 s2 : string) : bool :=
  match s1, s2 with
  | EmptyString, EmptyString => false
  | EmptyString, String _ _ => true
  | String _ _, EmptyString => false
  | String a r1, String b r2 =>
      let na := nat_of_ascii a in
      let nb := nat_of_ascii b in
      if Nat.ltb na nb then true
      else if Nat.ltb nb na then false
      else str_ltb r1 r2
  end.

Fixpoint insert_sorted (x : string) (l : list string) : list string :=
  match l with
  | [] => [x]
  | y :: l' => if str_ltb y x then y :: insert_sorted x l' else x :: l
  end.

(** [sorted(...)] on a list of strings. *)
Fixpoint sorted (l : list string) : list string :=
  match l with
  | [] => []
  | x :: l' => insert_sorted x (sorted l')
  end.

(** [set(all_abs) - set(full_abs)], listed without duplicates. *)
Definition set_minus (all_abs full_abs : list string) : list string :=
  remove_dups (filter (fun p => p ∉ full_abs) all_abs).

(** Least [e] with [4 ^ e >= m], searched up to [fuel]. *)
Fixpoint ceil_log4 (fuel m : nat) : nat :=
  match fuel with
  | 0 => 0
  | S fuel' => if Nat.leb m 1 then 0 else S (ceil_log4 fuel' (Nat.div (m + 3) 4))
  end.

(** [setsize] in CPython's [random.sample]: [21], plus
    [4 ** ceil(log(3k, 4))] when [k > 5]. *)
Definition setsize (k : nat) : nat :=
  21 + (if Nat.ltb 5 k then 4 ^ ceil_log4 (3 * k) (3 * k) else 0).

(** The generator is a finite list of raw draws; [randbelow(m)] takes the
    next draw modulo [m]. [None] when the draws run out. *)
Definition randbelow (m : nat) (draws : list nat) : option (nat * list nat) :=
  match draws with
  | [] => None
  | d :: ds => Some (d mod m, ds)
  end.

(** The pool branch of [random.sample]: [j = randbelow(n - i);
    result[i] = pool[j]; pool[j] = pool[n - i - 1]]. *)
Fixpoint pool_loop {A} (pool : list A) (n i rem : nat) (draws : list nat)
    : option (list A) :=
  match rem with
  | 0 => Some []
  | S rem' =>
      match randbelow (n - i) draws with
      | None => None
      | Some (j, ds) =>
          match pool !! j, pool !! (n - i - 1) with
          | Some x, Some last =>
              match pool_loop (<[j := last]> pool) n (S i) rem' ds with
              | Some r => Some (x :: r)
              | None => None
              end
          | _, _ => None
          end
      end
  end.

(** [j = randbelow(n)] repeated while [j in selected]. *)
Fixpoint draw_fresh (n : nat) (selected : list nat) (draws : list nat)
    : option (nat * list nat) :=
  match draws with
  | [] => None
  | d :: ds =>
      let j := d mod n in
      if decide (j ∈ selected) then draw_fresh n selected ds else Some (j, ds)
  end.

(** The set branch of [random.sample]. *)
Fixpoint set_loop {A} (population : list A) (n : nat) (selected : list nat)
    (rem : nat) (draws : list nat) : option (list A) :=
  match rem with
  | 0 => Some []
  | S rem' =>
      match draw_fresh n selected draws with
      | None => None
      | Some (j, ds) =>
          match population !! j with
          | Some x =>
              match set_loop population n (j :: selected) rem' ds with
              | Some r => Some (x :: r)
              | None => None
              end
          | None => None
          end
      end
  end.

(** CPython's [random.sample(population, k)]; [None] also stands for the
    [ValueError] raised when [k] exceeds the population. *)
Definition random_sample {A} (population : list A) (k : nat) (draws : list nat)
    : option (list A) :=
  let n := length population in
  if Nat.ltb n k then None
  else if Nat.leb n (setsize k) then pool_loop population n 0 k draws
  else set_loop population n [] k draws.

Section Sampling.

(** [FileSelector.create(root_path, [".git"]).get_files()]. *)
Variable project_files : list string.

(** [ContextCollector.sample_file_abs]. *)
Definition sample_file_abs (full_abs : list string) (draws : list nat)
    : option (list string) :=
  let all_abs := project_files in
  let incomplete_files := sorted (set_minus all_abs full_abs) in
  random_sample incomplete_files (Nat.min 2 (length incomplete_files)) draws.

End Sampling.

(** The dict handed to the [context] template by [ContextGenerator.context]. *)
Record ContextDict := mkContextDict {
  project_name : string;
  folder_structure_diagram : string;
  ctx_files : list FileRec;
  ctx_highlights : list OutlineRecord;
  sample_requested_files : list string;
  prompt : option string
}.

Section Context.

Variable to_language : string -> option string.
Variable to_abs_path : string -> string.
Variable to_rel_path : string -> string.
Variable safe_read_file : string -> option string.
Variable outline_text : string -> string -> string -> option string.
Variable project_files : list string.
(** [get_annotated_fsd(root, full_abs, outline_abs, no_media)]. *)
Variable get_annotated_fsd : list string -> list string -> bool -> string.
Variable root_name : string.
(** The [no_media] and [with_prompt] settings and the profile's prompt. *)
Variables (no_media with_prompt : bool) (prompt_text : string).

(** [ContextGenerator.context], up to template rendering; the random
    generator's draws are explicit. *)
Definition context (g : ContextGenerator) (draws : list nat) : option ContextDict :=
  match sample_file_abs project_files (full_abs g) draws with
  | None => None
  | Some sample =>
      Some (mkContextDict
              root_name
              (get_annotated_fsd (full_abs g) (outline_abs g) no_media)
              (files to_abs_path safe_read_file (full_rel g))
              (outlines to_language to_abs_path safe_read_file outline_text (outline_rel g))
              (map to_rel_path sample)
              (if with_prompt then Some prompt_text else None))
  end.

End Context.

End ContextGen.

(** ** Command wrappers (cmd_pipeline.py) *)
Module Pipeline.

(** Raised exceptions: [LLMContextError], the [RuntimeError] raised by
    [ExecutionEnvironment.current()], any other subclass of [Exception],
    and the [BaseException] subclasses outside it. *)
Inductive exn :=
| LLMContextError (message : string)
| RuntimeError (message : string)
| OtherException (message : string)
| KeyboardInterrupt
| SystemExit (code : string).

(** [isinstance(e, Exception)]. *)
Definition is_Exception (e : exn) : bool :=
  match e with
  | LLMContextError _ | RuntimeError _ | OtherException _ => true
  | KeyboardInterrupt | SystemExit _ => false
  end.

(** [str(e)]. *)
Definition str_exn (e : exn) : string :=
  match e with
  | LLMContextError m | RuntimeError m | OtherException m => m
  | KeyboardInterrupt => ""
  | SystemExit c => c
  end.

(** The observable world of a command run. An [ExecutionEnvironment] is a
    handle [nat]; [messages] holds each environment's [runtime.messages];
    [active] is the environment [ExecutionEnvironment.current()] returns,
    [None] when no [with env.activate()] block is open. *)
Record World := mkWorld {
  active : option nat;
  next_env : nat;
  messages : nat -> list string;
  stdout : list string;
  stderr : list string;
  clipboard : option string;
  clipboard_available : bool
}.

Record ExecutionResult := mkExecutionResult {
  content : option string;
  env : nat
}.

Inductive outcome (A : Type) :=
| Ok (a : A)
| Raise (e : exn).
Arguments Ok {A} a.
Arguments Raise {A} e.

(** Python statements over the world: a state and exception monad. *)
Definition M (A : Type) : Type := World -> outcome A * World.

Definition ret {A} (a : A) : M A := fun w => (Ok a, w).

Definition bind {A B} (m : M A) (k : A -> M B) : M B :=
  fun w => match m w with
           | (Ok a, w') => k a w'
           | (Raise e, w') => (Raise e, w')
           end.

Notation "'let!' x := m 'in' k" := (bind m (fun x => k))
  (at level 200, x name, m at level 100, k at level 200).

Definition modify (f : World -> World) : M unit := fun w => (Ok tt, f w).

Definition set_messages (w : World) (msgs : nat -> list string) : World :=
  mkWorld (active w) (next_env w) msgs (stdout w) (stderr w)
          (clipboard w) (clipboard_available w).

(** [logger.error(msg)] and [logger.info(msg)] on the logger of
    environment [e]: the runtime collects the line in [e]'s
    [runtime.messages]. *)
Definition log_to (e : nat) (msg : string) (w : World) : World :=
  set_messages w (fun k => if Nat.eqb k e then (messages w k ++ [msg])%list else messages w k).

Definition print (msg : string) (w : World) : World :=
  mkWorld (active w) (next_env w) (messages w) (stdout w ++ [msg])%list (stderr w)
          (clipboard w) (clipboard_available w).

(** [traceback.print_exc()] writes the traceback to [sys.stderr]. *)
Definition print_exc (w : World) : World :=
  mkWorld (active w) (next_env w) (messages w) (stdout w) (stderr w ++ ["Traceback"])%list
          (clipboard w) (clipboard_available w).

Definition set_active (e : option nat) (w : World) : World :=
  mkWorld e (next_env w) (messages w) (stdout w) (stderr w)
          (clipboard w) (clipboard_available w).

Section Wrappers.

(** [_format_size(size_bytes)]. *)
Variable format_size : nat -> string.
(** The message of the [RuntimeError] raised by
    [ExecutionEnvironment.current()] outside any environment. *)
Variable no_env_message : string.
(** The message of the [PyperclipException] raised when no copy
    mechanism is available. *)
Variable pyperclip_error : string.

(** [ExecutionEnvironment.current()]. *)
Definition current : M nat :=
  fun w => match active w with
           | Some e => (Ok e, w)
           | None => (Raise (RuntimeError no_env_message), w)
           end.

(** [pyperclip.copy(text)]; it raises when no clipboard is available. *)
Definition pyperclip_copy (text : string) : M unit :=
  fun w =>
    if clipboard_available w then
      (Ok tt, mkWorld (active w) (next_env w) (messages w) (stdout w) (stderr w)
                      (Some text) (clipboard_available w))
    else (Raise (OtherException pyperclip_error), w).

(** [with_env]: a fresh environment, with an empty message list, active
    while [func] runs; the [with env.activate()] block restores the
    previously active one on exit, also when [func] raises. *)
Definition with_env (func : nat -> M ExecutionResult) : M ExecutionResult :=
  fun w =>
    let e := next_env w in
    let w1 := mkWorld (Some e) (S e)
                      (fun k => if Nat.eqb k e then [] else messages w k)
                      (stdout w) (stderr w) (clipboard w) (clipboard_available w) in
    let '(r, w2) := func e w1 in
    (r, set_active (active w) w2).

(** [with_logging]: [except Exception] asks [ExecutionEnvironment.current()]
    for an environment, logs to it and returns
    [ExecutionResult(None, env)]; an exception raised inside the handler
    propagates. *)
Definition with_logging (func : M ExecutionResult) : M ExecutionResult :=
  fun w =>
    match func w with
    | (Ok r, w') => (Ok r, w')
    | (Raise e, w') =>
        if is_Exception e then
          (let! env := current in
           let! _ := modify (log_to env ("Error: " ++ str_exn e)) in
           ret (mkExecutionResult None env)) w'
        else (Raise e, w')
    end.

(** [with_clipboard]; [if result.content:] is false for [None] and [""];
    the size is logged on [result.env]'s logger. *)
Definition with_clipboard (func : M ExecutionResult) : M ExecutionResult :=
  let! result := func in
  match content result with
  | Some c =>
      if String.eqb c "" then ret result
      else let! _ := pyperclip_copy c in
           let! _ := modify (log_to (env result)
                               ("Copied " ++ format_size (String.length c)
                                ++ " to clipboard")) in
           ret result
  | None => ret result
  end.

(** [with_print]: prints the messages of [result.env]. *)
Definition with_print (func : M ExecutionResult) : M ExecutionResult :=
  let! result := func in
  let! _ := modify (fun w => fold_left (fun w' msg => print msg w')
                                   (messages w (env result)) w) in
  ret result.

(** [with_error]: returns [None]; [except LLMContextError] and
    [except Exception] log on [ExecutionEnvironment.current().logger]
    (the environment's logger, collecting into its messages), the latter
    also prints the traceback; an exception raised inside a handler
    propagates. *)
Definition with_error (func : M ExecutionResult) : M unit :=
  fun w =>
    match func w with
    | (Ok _, w') => (Ok tt, w')
    | (Raise (LLMContextError m), w') =>
        (let! env := current in
         modify (log_to env ("Error: " ++ m))) w'
    | (Raise e, w') =>
        if is_Exception e then
          (let! env := current in
           let! _ := modify (log_to env ("An unexpected error occurred: " ++ str_exn e)) in
           modify print_exc) w'
        else (Raise e, w')
    end.

Definition create_clipboard_cmd (func : nat -> M ExecutionResult) : M unit :=
  with_error (with_print (with_clipboard (with_logging (with_env func)))).

Definition create_command (func : nat -> M ExecutionResult) : M unit :=
  with_error (with_print (with_logging (with_env func))).

End Wrappers.

End Pipeline.

(** ** Project initialisation (project_setup.py) *)
Module Setup.

(** The paths of [ProjectLayout] used by [ProjectSetup.initialize]. *)
Record ProjectLayout := mkProjectLayout {
  config_path : string;
  state_path : string;
  state_store_path : string;
  project_config_path : string;
  project_notes_path : string;
  user_notes_path : string
}.

(** The file system: path to file text. *)
Abbreviation FS := (gmap string string).

(** File-system statements; [None] is a raised exception, after which the
    writes already done remain. *)
Definition IO (A : Type) : Type := FS -> option A * FS.

Definition io_ret {A} (a : A) : IO A := fun fs => (Some a, fs).

Definition io_bind {A B} (m : IO A) (k : A -> IO B) : IO B :=
  fun fs => match m fs with
            | (Some a, fs') => k a fs'
            | (None, fs') => (None, fs')
            end.

Notation "'let?' x := m 'in' k" := (io_bind m (fun x => k))
  (at level 200, x name, m at level 100, k at level 200).

(** [raise]: an exception leaves the file system as it is. *)
Definition io_raise {A} : IO A := fun fs => (None, fs).

(** A value computed by code that may raise. *)
Definition from_option {A} (o : option A) : IO A :=
  match o with
  | Some a => io_ret a
  | None => io_raise
  end.

(** [path.exists()]. *)
Definition path_exists (p : string) : IO bool :=
  fun fs => (Some (bool_decide (is_Some (fs !! p))), fs).

(** Reading a file, which raises when it is missing. *)
Definition read_file (p : string) : IO string :=
  fun fs => match fs !! p with
            | Some text => (Some text, fs)
            | None => (None, fs)
            end.

(** [path.write_text(text)] and [Toml.save(path, data)]. *)
Definition write_text (p text : string) : IO unit :=
  fun fs => (Some tt, <[p := text]> fs).

Definition when (b : bool) (m : IO unit) : IO unit :=
  if b then m else io_ret tt.

Fixpoint for_each {A} (f : A -> IO unit) (l : list A) : IO unit :=
  match l with
  | [] => io_ret tt
  | x :: l' => let? _ := f x in for_each f l'
  end.

Definition project_notes_text : string :=
  "## Project Notes" ++ String "010" (String "010"
  ("Add project-specific notes, documentation and guidelines here." ++ String "010"
  ("This file is stored in the project repository." ++ String "010" ""))).

Definition user_notes_text : string :=
  "## User Notes" ++ String "010" (String "010"
  ("Add any personal notes or reminders about this or other projects here." ++ String "010"
  ("This file is private and stored in your user config directory." ++ String "010" ""))).

Section Initialize.

Variable layout : ProjectLayout.
(** [self.constants.needs_update]. *)
Variable needs_update : bool.
(** [ProjectLayout.get_template_path(name)]. *)
Variable get_template_path : string -> string.
(** [resources.read_text(lc_resources, name)]; [None] when it raises. *)
Variable resource_text : string -> option string.
(** The template names of [Toml.load(config_path)["templates"]], in
    order; [None] when parsing raises. *)
Variable config_templates : string -> option (list string).
(** The TOML texts written by [Toml.save] for the default config, for
    [{"selections": {}}] and for [ToolConstants.create_new().to_dict()]. *)
Variables (default_config_toml empty_selections_toml new_state_toml : string).

Definition _create_config_file : IO unit :=
  write_text (config_path layout) default_config_toml.

Definition _create_or_update_config_file : IO unit :=
  let? e := path_exists (config_path layout) in
  when (negb e || needs_update) _create_config_file.

Definition _create_curr_ctx_file : IO unit :=
  let? e := path_exists (state_store_path layout) in
  when (negb e) (write_text (state_store_path layout) empty_selections_toml).

Definition _copy_template (template_name dest_path : string) : IO unit :=
  let? template_content := from_option (resource_text template_name) in
  write_text dest_path template_content.

Definition _update_templates_if_needed : IO unit :=
  when needs_update
    (let? text := read_file (config_path layout) in
     let? names := from_option (config_templates text) in
     for_each (fun template_name =>
                 _copy_template template_name (get_template_path template_name))
              names).

Definition create_state_file : IO unit :=
  write_text (state_path layout) new_state_toml.

Definition _create_project_notes_file : IO unit :=
  let notes_path := project_notes_path layout in
  let? e := path_exists notes_path in
  when (negb e) (write_text notes_path project_notes_text).

Definition _create_user_notes_file : IO unit :=
  let notes_path := user_notes_path layout in
  let? e := path_exists notes_path in
  when (negb e) (write_text notes_path user_notes_text).

(** [project_config_path / "lc-prompt.md"]. *)
Definition prompt_path : string := project_config_path layout ++ "/lc-prompt.md".

(** [ProjectSetup.initialize]. *)
Definition initialize : IO unit :=
  let? _ := _create_or_update_config_file in
  let? _ := _create_curr_ctx_file in
  let? _ := _update_templates_if_needed in
  let? _ := create_state_file in
  let? _ := _copy_template "lc-prompt.md" prompt_path in
  let? _ := _create_project_notes_file in
  _create_user_notes_file.

End Initialize.

(** A run of [m] leaves the file at [p] as it was, or creates it with
    text [d] when it was absent. *)
Definition keeps {A} (p d : string) (m : IO A) : Prop :=
  forall fs, (m fs).2 !! p = fs !! p \/ (fs !! p = None /\ (m fs).2 !! p = Some d).

End Setup.

(** ** Concrete configurations used to exercise the theorems *)
Module Samples.
Import ContextGen.

(** A registry mapping [.py] to [python] only. *)
Definition to_language_py (p : string) : option string :=
  if String.eqb p "a.py" then Some "python"
  else if String.eqb p "c.py" then Some "python" else None.

Definition to_abs_root (p : string) : string := "/root/" ++ p.

(** A file system in which every selected file is readable except [c.py]. *)
Definition read_all_but_c (abs : string) : option string :=
  if String.eqb abs "/root/c.py" then None else Some ("text of " ++ abs).

Definition outline_sig (tag path content : string) : option string :=
  Some (tag ++ ":" ++ path).

(** A project of four files, [a.py] fully included. *)
Definition project_files_4 : list string :=
  ["/root/a.py"; "/root/b.py"; "/root/c.py"; "/root/d.py"].

Definition to_rel_root (p : string) : string := substring 6 (String.length p - 6) p.

Definition fsd_sample (full outline : list string) (no_media : bool) : string :=
  "tree".

Definition generator_sample : ContextGenerator :=
  create to_language_py to_abs_root (mkFileSelection ["a.py"] ["c.py"]).

(** [ContextGenerator.context] on the sample project. *)
Definition context_sample (draws : list nat) : option ContextDict :=
  context to_language_py to_abs_root to_rel_root read_all_but_c outline_sig
    project_files_4 fsd_sample "root" false false "" generator_sample draws.

(** The context dict of the sample project for a given sample. *)
Definition context_sample_dict (sample : list string) : ContextDict :=
  mkContextDict "root" "tree" [mkFileRec "a.py" "text of /root/a.py"] [] sample None.

(** A world with no active environment yet and a usable clipboard. *)
Definition world0 : Pipeline.World :=
  Pipeline.mkWorld None 1 (fun _ => []) [] [] None true.

(** A world inside an outer environment [0], with a usable clipboard. *)
Definition world_in_env : Pipeline.World :=
  Pipeline.mkWorld (Some 0) 1 (fun _ => []) [] [] None true.

(** A command failing with an ordinary exception. *)
Definition failing_command (env : nat) : Pipeline.M Pipeline.ExecutionResult :=
  fun w => (Pipeline.Raise (Pipeline.OtherException "boom"), w).

Definition format_size_bytes (n : nat) : string := "some bytes".

(** The layout of a project under [/p] with user notes under [/home]. *)
Definition layout_sample : Setup.ProjectLayout :=
  Setup.mkProjectLayout "/p/.llm-context/config.toml" "/p/.llm-context/lc-state.toml"
    "/p/.llm-context/curr_ctx.toml" "/p/.llm-context" "/p/.llm-context/lc-project-notes.md"
    "/home/.llm-context/lc-user-notes.md".

Definition template_path_sample (name : string) : string :=
  "/p/.llm-context/templates/" ++ name.

(** A project whose notes file already exists. *)
Definition fs_sample : gmap string string :=
  <["/p/.llm-context/lc-project-notes.md" := "my notes"]> ∅.

(** Packaged resources without the prompt file. *)
Definition resource_no_prompt (name : string) : option string :=
  if String.eqb name "lc-prompt.md" then None else Some name.

(** A command returning the text ["ctx"] in its own environment. *)
Definition ok_command (env : nat) : Pipeline.M Pipeline.ExecutionResult :=
  fun w => (Pipeline.Ok (Pipeline.mkExecutionResult (Some "ctx") env), w).

(** A world without a usable clipboard, outside any environment. *)
Definition world_no_clip : Pipeline.World :=
  Pipeline.mkWorld None 1 (fun _ => []) [] [] None false.

End Samples.

(** ** Properties of context collection *)
Module ContextGenFacts.
Import ContextGen Samples.

Section Facts.

Variable to_language : string -> option string.
Variable to_abs_path : string -> string.
Variable safe_read_file : string -> option string.
Variable outline_text : string -> string -> string -> option string.

Lemma omap_zip_map {B} (f : string -> string) (g : string * string -> option B)
    (l : list string) :
  omap g (zip l (map f l)) = omap (fun x => g (x, f x)) l.
Proof.
  induction l as [|x l IH]; [done|]. simpl.
  destruct (g (x, f x)); [f_equal|]; exact IH.
Qed.

(** The outline records of a list of paths: one per path that has a
    language and can be read, in input order. *)
Lemma outlines_flat_map (rel_paths : list string) :
  outlines to_language to_abs_path safe_read_file outline_text rel_paths =
  flat_map (fun p =>
              match to_language p, safe_read_file (to_abs_path p) with
              | Some tag, Some c => [mkOutlineRecord p (default "" (outline_text tag p c))]
              | _, _ => []
              end) rel_paths.
Proof.
  unfold outlines, to_absolute. cbv zeta. rewrite omap_zip_map.
  unfold generate_outlines.
  induction rel_paths as [|p l IH]; [done|]. simpl.
  destruct (safe_read_file (to_abs_path p)) as [c|]; simpl;
    destruct (to_language p) as [tag|]; simpl;
    [f_equal; exact IH | exact IH | exact IH | exact IH].
Qed.

Lemma py_truthy_some (o : option string) : py_truthy o = true -> is_Some o.
Proof. destruct o; simpl; [eauto | discriminate]. Qed.

Lemma highlights_paths (sel : FileSelection) :
  map or_path (highlights to_language to_abs_path safe_read_file outline_text
                 (create to_language to_abs_path sel)) =
  filter (fun p => py_truthy (to_language p) = true /\
                   is_Some (safe_read_file (to_abs_path p))) (outline_files sel).
Proof.
  unfold highlights, create; simpl. rewrite outlines_flat_map.
  induction (outline_files sel) as [|p l IH]; [done|].
  rewrite !filter_cons.
  destruct (decide (py_truthy (to_language p) = true)) as [Ht|Ht].
  - destruct (py_truthy_some _ Ht) as [tag Htag].
    destruct (safe_read_file (to_abs_path p)) as [c|] eqn:Hr.
    + rewrite decide_True by (split; eauto). simpl. rewrite Htag, Hr. simpl.
      f_equal. exact IH.
    + rewrite decide_False by (intros [_ [? ?]]; discriminate).
      simpl. rewrite Htag, Hr. exact IH.
  - rewrite decide_False by tauto. exact IH.
Qed.

(** C1: a selected outline file whose path has no language tag is dropped
    from [outline_rel] by [ContextGenerator.create], and no outline record
    carries its path; [create] is total, so the exclusion raises nothing. *)
Theorem untagged_file_excluded (sel : FileSelection) (p : string)
    (Hnone : to_language p = None) :
  (p ∉ outline_rel (create to_language to_abs_path sel)) /\
  Forall (fun r => or_path r <> p)
    (highlights to_language to_abs_path safe_read_file outline_text
       (create to_language to_abs_path sel)).
Proof.
  split.
  - simpl. rewrite list_elem_of_filter, Hnone. simpl. intros [H _]. discriminate.
  - apply Forall_forall. intros r Hr Heq.
    apply (list_elem_of_fmap_2 or_path) in Hr.
    rewrite highlights_paths, Heq, list_elem_of_filter, Hnone in Hr.
    destruct Hr as [[H _] _]. discriminate.
Qed.

(** C2: the paths of the outline records are the selected outline files
    that have a language and can be read, in the order of the selection. *)
Theorem highlights_keep_input_order (sel : FileSelection) :
  map or_path (highlights to_language to_abs_path safe_read_file outline_text
                 (create to_language to_abs_path sel)) =
  filter (fun p => py_truthy (to_language p) = true /\
                   is_Some (safe_read_file (to_abs_path p))) (outline_files sel).
Proof. apply highlights_paths. Qed.

(** C4 (amended): [ContextCollector.outlines] yields, for each input path
    in turn, exactly one record when the path has a language tag and its
    file can be read (text empty on a parser fault), and none otherwise. *)
Theorem outlines_one_record_per_readable_supported (rel_paths : list string) :
  outlines to_language to_abs_path safe_read_file outline_text rel_paths =
  flat_map (fun p =>
              match to_language p, safe_read_file (to_abs_path p) with
              | Some tag, Some c => [mkOutlineRecord p (default "" (outline_text tag p c))]
              | _, _ => []
              end) rel_paths.
Proof. apply outlines_flat_map. Qed.

(** C8: [ContextCollector.files] yields, in input order, one record per
    path whose file can be read, pairing the path with its own content,
    and skips the others. *)
Theorem files_one_record_per_readable_path (rel_paths : list string) :
  files to_abs_path safe_read_file rel_paths =
  flat_map (fun p => match safe_read_file (to_abs_path p) with
                     | Some c => [mkFileRec p c]
                     | None => []
                     end) rel_paths.
Proof.
  unfold files, to_absolute. cbv zeta. rewrite omap_zip_map.
  induction rel_paths as [|p l IH]; [done|]. simpl.
  destruct (safe_read_file (to_abs_path p)); simpl; [f_equal|]; exact IH.
Qed.

End Facts.

(** Witness of C1: [b.xyz] has no tag under the [.py]-only registry. *)
Lemma untagged_file_excluded_witness :
  to_language_py "b.xyz" = None /\
  (("b.xyz" ∉ outline_rel (create to_language_py to_abs_root
                             (mkFileSelection [] ["a.py"; "b.xyz"]))) /\
   Forall (fun r => or_path r <> "b.xyz")
     (highlights to_language_py to_abs_root read_all_but_c outline_sig
        (create to_language_py to_abs_root (mkFileSelection [] ["a.py"; "b.xyz"])))).
Proof.
  split; [reflexivity|].
  apply (untagged_file_excluded to_language_py to_abs_root read_all_but_c outline_sig).
  reflexivity.
Defined.

(** C4 fails as stated: [c.py] is a supported input but cannot be read,
    and [ContextCollector.outlines] gives it no record. *)
Lemma outlines_drop_unreadable_supported_file :
  to_language_py "c.py" = Some "python" /\
  outlines to_language_py to_abs_root read_all_but_c outline_sig ["a.py"; "c.py"] =
    [mkOutlineRecord "a.py" "python:a.py"].
Proof. split; reflexivity. Qed.

End ContextGenFacts.

(** ** Properties of [sample_file_abs] and [ContextGenerator.context] *)
Module SamplingFacts.
Import ContextGen Samples.

Lemma elem_of_insert_sorted (x y : string) (l : list string) :
  x ∈ insert_sorted y l <-> x = y \/ x ∈ l.
Proof.
  induction l as [|z l IH]; simpl.
  - rewrite list_elem_of_singleton, elem_of_nil. tauto.
  - destruct (str_ltb z y); rewrite !elem_of_cons; [rewrite IH|]; tauto.
Qed.

Lemma elem_of_sorted (x : string) (l : list string) : x ∈ sorted l <-> x ∈ l.
Proof.
  induction l as [|y l IH]; simpl; [done|].
  rewrite elem_of_insert_sorted, IH, elem_of_cons. tauto.
Qed.

Lemma elem_of_set_minus (x : string) (all_abs full_abs : list string) :
  x ∈ set_minus all_abs full_abs <-> x ∈ all_abs /\ x ∉ full_abs.
Proof. unfold set_minus. rewrite elem_of_remove_dups, list_elem_of_filter. tauto. Qed.

Lemma elem_of_list_insert_inv {A} (l : list A) (j : nat) (y x : A) :
  x ∈ <[j := y]> l -> x = y \/ x ∈ l.
Proof.
  rewrite list_elem_of_lookup. intros [k Hk].
  apply list_lookup_insert_Some in Hk as [(_ & -> & _) | (_ & Hk)]; [by left|].
  right. by eapply list_elem_of_lookup_2.
Qed.

Lemma pool_loop_spec {A} (rem : nat) (pool : list A) (n i : nat) (draws : list nat)
    (out : list A) :
  pool_loop pool n i rem draws = Some out ->
  length out = rem /\ (forall x, x ∈ out -> x ∈ pool).
Proof.
  revert pool i draws out.
  induction rem as [|rem IH]; intros pool i draws out H; simpl in H.
  - injection H as <-. split; [done|]. intros x Hx. inversion Hx.
  - destruct (randbelow (n - i) draws) as [[j ds]|]; [|discriminate].
    destruct (pool !! j) as [x|] eqn:Hx; [|discriminate].
    destruct (pool !! (n - i - 1)) as [last|] eqn:Hlast; [|discriminate].
    destruct (pool_loop (<[j:=last]> pool) n (S i) rem ds) as [r|] eqn:Hr;
      [|discriminate].
    injection H as <-.
    destruct (IH _ _ _ _ Hr) as [Hlen Hin].
    split; [simpl; by rewrite Hlen|].
    intros z Hz. apply elem_of_cons in Hz as [->|Hz].
    + by eapply list_elem_of_lookup_2.
    + apply Hin, elem_of_list_insert_inv in Hz as [->|Hz]; [|done].
      by eapply list_elem_of_lookup_2.
Qed.

Lemma set_loop_spec {A} (rem : nat) (population : list A) (n : nat)
    (selected : list nat) (draws : list nat) (out : list A) :
  set_loop population n selected rem draws = Some out ->
  length out = rem /\ (forall x, x ∈ out -> x ∈ population).
Proof.
  revert selected draws out.
  induction rem as [|rem IH]; intros selected draws out H; simpl in H.
  - injection H as <-. split; [done|]. intros x Hx. inversion Hx.
  - destruct (draw_fresh n selected draws) as [[j ds]|]; [|discriminate].
    destruct (population !! j) as [x|] eqn:Hx; [|discriminate].
    destruct (set_loop population n (j :: selected) rem ds) as [r|] eqn:Hr;
      [|discriminate].
    injection H as <-.
    destruct (IH _ _ _ Hr) as [Hlen Hin].
    split; [simpl; by rewrite Hlen|].
    intros z Hz. apply elem_of_cons in Hz as [->|Hz]; [|by apply Hin].
    by eapply list_elem_of_lookup_2.
Qed.

(** [random.sample(population, k)] returns [k] members of [population]. *)
Lemma random_sample_spec {A} (population : list A) (k : nat) (draws : list nat)
    (out : list A) :
  random_sample population k draws = Some out ->
  length out = k /\ (forall x, x ∈ out -> x ∈ population).
Proof.
  unfold random_sample.
  destruct (Nat.ltb (length population) k); [discriminate|].
  destruct (Nat.leb (length population) (setsize k)).
  - apply pool_loop_spec.
  - apply set_loop_spec.
Qed.

(** C10: [sample_file_abs] returns at most two paths, each a project file
    that is not fully included, and the empty list when every project
    file is fully included. *)
Theorem sample_file_abs_draws_outside_full (project_files full_abs : list string)
    (draws : list nat) (out : list string)
    (Hs : sample_file_abs project_files full_abs draws = Some out) :
  length out <= 2 /\
  (forall x, x ∈ out -> x ∈ project_files /\ x ∉ full_abs) /\
  ((forall x, x ∈ project_files -> x ∈ full_abs) -> out = []).
Proof.
  unfold sample_file_abs in Hs.
  apply random_sample_spec in Hs as [Hlen Hin].
  split; [lia|]. split.
  - intros x Hx. apply Hin in Hx. by rewrite elem_of_sorted, elem_of_set_minus in Hx.
  - intros Hall. destruct out as [|x out]; [done|].
    exfalso. assert (Hx : x ∈ x :: out) by (apply elem_of_cons; left; done).
    apply Hin in Hx. rewrite elem_of_sorted, elem_of_set_minus in Hx.
    destruct Hx as [Hx Hnot]. by apply Hnot, Hall.
Qed.

Lemma sample_file_abs_draws_outside_full_witness :
  sample_file_abs project_files_4 ["/root/a.py"] [1; 0] = Some ["/root/c.py"; "/root/b.py"] /\
  (length ["/root/c.py"; "/root/b.py"] <= 2 /\
   (forall x, x ∈ ["/root/c.py"; "/root/b.py"] -> x ∈ project_files_4 /\ x ∉ ["/root/a.py"]) /\
   ((forall x, x ∈ project_files_4 -> x ∈ ["/root/a.py"]) -> ["/root/c.py"; "/root/b.py"] = [])).
Proof.
  split; [reflexivity|].
  apply (sample_file_abs_draws_outside_full project_files_4 ["/root/a.py"] [1; 0]).
  reflexivity.
Defined.

(** C3 fails as stated: on the same project and selection, two states of
    the random generator give different [sample_requested_files], hence
    different context dicts. *)
Lemma context_depends_on_random_state :
  context_sample [0; 0] <> context_sample [1; 0] /\
  option_map sample_requested_files (context_sample [0; 0]) = Some ["b.py"; "d.py"] /\
  option_map sample_requested_files (context_sample [1; 0]) = Some ["c.py"; "b.py"].
Proof. vm_compute. split; [|split; reflexivity]. intros H. discriminate H. Qed.

Section ContextFacts.

Variable to_language : string -> option string.
Variable to_abs_path : string -> string.
Variable to_rel_path : string -> string.
Variable safe_read_file : string -> option string.
Variable outline_text : string -> string -> string -> option string.
Variable project_files : list string.
Variable get_annotated_fsd : list string -> list string -> bool -> string.
Variable root_name : string.
Variables (no_media with_prompt : bool) (prompt_text : string).

(** C3 (amended): two runs of [ContextGenerator.context] on the same
    generator differ at most in [sample_requested_files]: every other
    field, the outline records included, is a function of the input. *)
Theorem context_deterministic_but_sample (g : ContextGenerator)
    (draws1 draws2 : list nat) (c1 c2 : ContextDict)
    (H1 : context to_language to_abs_path to_rel_path safe_read_file outline_text
            project_files get_annotated_fsd root_name no_media with_prompt
            prompt_text g draws1 = Some c1)
    (H2 : context to_language to_abs_path to_rel_path safe_read_file outline_text
            project_files get_annotated_fsd root_name no_media with_prompt
            prompt_text g draws2 = Some c2) :
  project_name c1 = project_name c2 /\
  folder_structure_diagram c1 = folder_structure_diagram c2 /\
  ctx_files c1 = ctx_files c2 /\
  ctx_highlights c1 = ctx_highlights c2 /\
  prompt c1 = prompt c2.
Proof.
  unfold context in H1, H2.
  destruct (sample_file_abs project_files (full_abs g) draws1); [|discriminate].
  destruct (sample_file_abs project_files (full_abs g) draws2); [|discriminate].
  injection H1 as <-. injection H2 as <-. simpl. auto.
Qed.

End ContextFacts.

Lemma context_deterministic_but_sample_witness :
  context_sample [0; 0] = Some (context_sample_dict ["b.py"; "d.py"]) /\
  context_sample [1; 0] = Some (context_sample_dict ["c.py"; "b.py"]) /\
  (project_name (context_sample_dict ["b.py"; "d.py"]) =
     project_name (context_sample_dict ["c.py"; "b.py"]) /\
   folder_structure_diagram (context_sample_dict ["b.py"; "d.py"]) =
     folder_structure_diagram (context_sample_dict ["c.py"; "b.py"]) /\
   ctx_files (context_sample_dict ["b.py"; "d.py"]) =
     ctx_files (context_sample_dict ["c.py"; "b.py"]) /\
   ctx_highlights (context_sample_dict ["b.py"; "d.py"]) =
     ctx_highlights (context_sample_dict ["c.py"; "b.py"]) /\
   prompt (context_sample_dict ["b.py"; "d.py"]) =
     prompt (context_sample_dict ["c.py"; "b.py"])).
Proof.
  split; [vm_compute; reflexivity|]. split; [vm_compute; reflexivity|].
  apply (context_deterministic_but_sample to_language_py to_abs_root to_rel_root
           read_all_but_c outline_sig project_files_4 fsd_sample "root" false false ""
           generator_sample [0; 0] [1; 0]); vm_compute; reflexivity.
Defined.

End SamplingFacts.

(** ** Properties of the command wrappers *)
Module PipelineFacts.
Import Pipeline Samples.

Lemma with_env_restores_active (func : nat -> M ExecutionResult) (w : World) :
  active (with_env func w).2 = active w.
Proof.
  unfold with_env.
  destruct (func (next_env w) _) as [r w2]. reflexivity.
Qed.

(** C5 (code bug): outside any environment, an [Exception] raised by a
    command is not caught. [with_env] has closed its environment when
    [with_logging]'s handler calls [ExecutionEnvironment.current()], which
    raises [RuntimeError]; [with_error]'s handler calls it again and the
    [RuntimeError] reaches the caller, with nothing logged or printed. *)
Theorem no_active_env_exception_escapes (format_size : nat -> string)
    (no_env_message pyperclip_error : string)
    (func : nat -> M ExecutionResult) (w w2 : World) (e : exn)
    (Hna : active w = None)
    (Henv : with_env func w = (Raise e, w2))
    (He : is_Exception e = true) :
  create_command no_env_message func w = (Raise (RuntimeError no_env_message), w2) /\
  create_clipboard_cmd format_size no_env_message pyperclip_error func w =
    (Raise (RuntimeError no_env_message), w2).
Proof.
  pose proof (with_env_restores_active func w) as Ha.
  rewrite Henv, Hna in Ha. simpl in Ha.
  unfold create_command, create_clipboard_cmd, with_error, with_print,
    with_clipboard, with_logging, bind, current.
  rewrite Henv, He, Ha. simpl. rewrite Ha. split; reflexivity.
Qed.

Lemma no_active_env_exception_escapes_witness :
  active world0 = None /\
  with_env failing_command world0 =
    (Raise (OtherException "boom"), (with_env failing_command world0).2) /\
  create_command "no environment" failing_command world0 =
    (Raise (RuntimeError "no environment"), (with_env failing_command world0).2).
Proof.
  assert (Henv : with_env failing_command world0 =
            (Raise (OtherException "boom"), (with_env failing_command world0).2))
    by reflexivity.
  split; [reflexivity|]. split; [exact Henv|].
  exact (proj1 (no_active_env_exception_escapes format_size_bytes "no environment" ""
                  failing_command world0 _ _ eq_refl Henv eq_refl)).
Defined.

End PipelineFacts.

(** ** Properties of project initialisation *)
Module SetupFacts.
Import Setup Samples.

Section Keeps.

Variables p d : string.

Lemma keeps_ret {A} (a : A) : keeps p d (io_ret a).
Proof. intros fs. by left. Qed.

Lemma keeps_raise {A} : keeps p d (@io_raise A).
Proof. intros fs. by left. Qed.

Lemma keeps_from_option {A} (o : option A) : keeps p d (from_option o).
Proof. destruct o; [apply keeps_ret | apply keeps_raise]. Qed.

Lemma keeps_path_exists (q : string) : keeps p d (path_exists q).
Proof. intros fs. by left. Qed.

Lemma keeps_read_file (q : string) : keeps p d (read_file q).
Proof. intros fs. unfold read_file. left. by destruct (fs !! q). Qed.

Lemma keeps_write_other (q text : string) : q <> p -> keeps p d (write_text q text).
Proof. intros Hq fs. left. simpl. by rewrite lookup_insert_ne. Qed.

Lemma keeps_when (b : bool) (m : IO unit) : keeps p d m -> keeps p d (when b m).
Proof. destruct b; [done | intros _; apply keeps_ret]. Qed.

Lemma keeps_bind {A B} (m : IO A) (k : A -> IO B) :
  keeps p d m -> (forall a, keeps p d (k a)) -> keeps p d (io_bind m k).
Proof.
  intros Hm Hk fs. unfold io_bind.
  specialize (Hm fs). destruct (m fs) as [[a|] fs'] eqn:E; simpl in Hm; [|done].
  destruct (Hk a fs') as [H|[H1 H2]]; rewrite ?H, ?H2; [done|].
  destruct Hm as [Hm|[Hm _]]; right; split; [congruence|done|done|done].
Qed.

Lemma keeps_for_each {A} (f : A -> IO unit) (l : list A) :
  (forall x, keeps p d (f x)) -> keeps p d (for_each f l).
Proof.
  intros Hf. induction l as [|x l IH]; simpl; [apply keeps_ret|].
  apply keeps_bind; [apply Hf | intros _; exact IH].
Qed.

(** The create-if-absent pattern of the notes and state-store files. *)
Lemma keeps_create_absent :
  keeps p d (io_bind (path_exists p) (fun e => when (negb e) (write_text p d))).
Proof.
  intros fs. unfold io_bind, path_exists; simpl.
  destruct (fs !! p) as [t|] eqn:E; simpl.
  - left. by rewrite E.
  - right. split; [done|]. simpl. by rewrite lookup_insert_eq.
Qed.

End Keeps.

Ltac keeps_step :=
  first
    [ apply keeps_create_absent
    | apply keeps_bind; [| intros ?]
    | apply keeps_when
    | apply keeps_for_each; intros ?
    | apply keeps_from_option
    | apply keeps_path_exists
    | apply keeps_read_file
    | apply keeps_ret
    | apply keeps_write_other ].

Section Initialize.

Variable layout : ProjectLayout.
Variable needs_update : bool.
Variable get_template_path : string -> string.
Variable resource_text : string -> option string.
Variable config_templates : string -> option (list string).
Variables (default_config_toml empty_selections_toml new_state_toml : string).

(** C9: when the state store, the project notes and the user notes are
    three distinct files, none of them the config file, the state file,
    the prompt file or a template destination, [ProjectSetup.initialize]
    never changes an existing one of them; one that was absent is either
    still absent or created with its default text. *)
Theorem initialize_never_overwrites_notes_or_store (fs : gmap string string)
    (Hdistinct : NoDup [state_store_path layout; project_notes_path layout;
                        user_notes_path layout])
    (Hother : forall q, q ∈ [state_store_path layout; project_notes_path layout;
                             user_notes_path layout] ->
       q <> config_path layout /\ q <> state_path layout /\
       q <> prompt_path layout /\ forall name, q <> get_template_path name) :
  forall q default,
    (q, default) ∈ [(state_store_path layout, empty_selections_toml);
                    (project_notes_path layout, project_notes_text);
                    (user_notes_path layout, user_notes_text)] ->
    let fs' := (initialize layout needs_update get_template_path resource_text
                  config_templates default_config_toml empty_selections_toml
                  new_state_toml fs).2 in
    fs' !! q = fs !! q \/ (fs !! q = None /\ fs' !! q = Some default).
Proof.
  intros q default Hq.
  assert (Hq' : q ∈ [state_store_path layout; project_notes_path layout;
                     user_notes_path layout]).
  { apply list_elem_of_fmap_2 with (f := fst) in Hq. exact Hq. }
  destruct (Hother q Hq') as (Hcfg & Hst & Hpr & Htpl).
  apply NoDup_cons in Hdistinct as [Hn1 Hdistinct].
  apply NoDup_cons in Hdistinct as [Hn2 _].
  rewrite !not_elem_of_cons in Hn1, Hn2.
  assert (K : keeps q default (initialize layout needs_update get_template_path
    resource_text config_templates default_config_toml empty_selections_toml
    new_state_toml)); [|exact (K fs)].
  unfold initialize, _create_or_update_config_file, _create_config_file,
    _create_curr_ctx_file, _update_templates_if_needed, _copy_template,
    create_state_file, _create_project_notes_file, _create_user_notes_file.
  rewrite !elem_of_cons, elem_of_nil in Hq.
  destruct Hq as [Hq|[Hq|[Hq|[]]]]; injection Hq as Hq1 Hq2; subst q default;
    repeat keeps_step; try done; clear Hother Hq'; set_solver.
Qed.

End Initialize.

Lemma initialize_never_overwrites_notes_or_store_witness :
  NoDup [state_store_path layout_sample; project_notes_path layout_sample;
         user_notes_path layout_sample] /\
  (forall q, q ∈ [state_store_path layout_sample; project_notes_path layout_sample;
                  user_notes_path layout_sample] ->
     q <> config_path layout_sample /\ q <> state_path layout_sample /\
     q <> prompt_path layout_sample /\ forall name, q <> template_path_sample name) /\
  (let fs' := (initialize layout_sample true template_path_sample (fun n => Some n)
                 (fun _ => Some ["lc-context.j2"]) "config" "selections" "state"
                 fs_sample).2 in
   fs' !! project_notes_path layout_sample = fs_sample !! project_notes_path layout_sample \/
   (fs_sample !! project_notes_path layout_sample = None /\
    fs' !! project_notes_path layout_sample = Some project_notes_text)).
Proof.
  assert (Hd : NoDup [state_store_path layout_sample; project_notes_path layout_sample;
                      user_notes_path layout_sample]) by (simpl; apply (bool_decide_unpack _); vm_compute; reflexivity).
  assert (Ho : forall q, q ∈ [state_store_path layout_sample;
                              project_notes_path layout_sample;
                              user_notes_path layout_sample] ->
     q <> config_path layout_sample /\ q <> state_path layout_sample /\
     q <> prompt_path layout_sample /\ forall name, q <> template_path_sample name).
  { simpl. intros q Hq. rewrite !elem_of_cons, elem_of_nil in Hq.
    unfold template_path_sample.
    destruct Hq as [->|[->|[->|[]]]]; repeat split; try discriminate;
      intros name Hn; apply (f_equal (String.substring 0 16)) in Hn;
      vm_compute in Hn; discriminate Hn. }
  split; [exact Hd|]. split; [exact Ho|].
  apply (initialize_never_overwrites_notes_or_store layout_sample true
           template_path_sample (fun n => Some n) (fun _ => Some ["lc-context.j2"])
           "config" "selections" "state" fs_sample Hd Ho).
  apply elem_of_cons. right. apply elem_of_cons. left. reflexivity.
Defined.

End SetupFacts.

(** ** Behaviour of the individual command wrappers *)
Module PipelineWrappers.
Import Pipeline Samples.

Lemma fold_print_stdout (l : list string) (w : World) :
  fold_left (fun w' msg => print msg w') l w =
  mkWorld (active w) (next_env w) (messages w) (stdout w ++ l) (stderr w)
          (clipboard w) (clipboard_available w).
Proof.
  revert w. induction l as [|m l IH]; intros w; simpl.
  - destruct w; simpl. by rewrite app_nil_r.
  - rewrite IH. simpl. by rewrite <-app_assoc.
Qed.

(** [create_command] inside an outer environment [e0]: an [Exception]
    raised by the command is caught; its ["Error: ..."] line is logged to
    [e0], whose messages, that line last, are then printed; nothing goes to
    stderr and the command completes. *)
Theorem create_command_in_env_reports_error (no_env_message : string)
    (func : nat -> M ExecutionResult) (w w2 : World) (e0 : nat) (e : exn)
    (Ha : active w = Some e0)
    (Henv : with_env func w = (Raise e, w2))
    (He : is_Exception e = true) :
  exists w', create_command no_env_message func w = (Ok tt, w') /\
    messages w' e0 = (messages w2 e0 ++ [("Error: " ++ str_exn e)%string])%list /\
    stdout w' = (stdout w2 ++ messages w2 e0 ++ [("Error: " ++ str_exn e)%string])%list /\
    stderr w' = stderr w2.
Proof.
  pose proof (PipelineFacts.with_env_restores_active func w) as Ha2.
  rewrite Henv, Ha in Ha2. simpl in Ha2.
  unfold create_command, with_error, with_print, with_logging, bind, modify, ret, current.
  rewrite Henv, He, Ha2, fold_print_stdout.
  eexists. split; [reflexivity|].
  simpl. rewrite Nat.eqb_refl. done.
Qed.

Lemma create_command_in_env_reports_error_witness :
  active world_in_env = Some 0 /\
  with_env failing_command world_in_env =
    (Raise (OtherException "boom"), (with_env failing_command world_in_env).2) /\
  exists w', create_command "no environment" failing_command world_in_env = (Ok tt, w') /\
    stdout w' = ["Error: boom"].
Proof.
  assert (Henv : with_env failing_command world_in_env =
            (Raise (OtherException "boom"), (with_env failing_command world_in_env).2))
    by reflexivity.
  split; [reflexivity|]. split; [exact Henv|].
  destruct (create_command_in_env_reports_error "no environment" failing_command
              world_in_env _ 0 _ eq_refl Henv eq_refl) as (w' & Hw & _ & Hout & _).
  exists w'. split; [exact Hw|]. rewrite Hout. reflexivity.
Defined.

(** [create_clipboard_cmd] when the command returns non-empty content but
    no clipboard is available: the [PyperclipException] skips
    [with_print], so the environment's messages are never printed. Outside
    any environment [with_error]'s handler then raises [RuntimeError];
    inside an environment [e0] it logs the error to [e0] and prints the
    traceback to stderr. *)
Theorem clipboard_failure_skips_printing (format_size : nat -> string)
    (no_env_message pyperclip_error : string)
    (func : nat -> M ExecutionResult) (w w2 : World) (r : ExecutionResult)
    (c : string) (Henv : with_env func w = (Ok r, w2)) (Hc : content r = Some c)
    (Hne : c <> "") (Hav : clipboard_available w2 = false) :
  (active w = None ->
   create_clipboard_cmd format_size no_env_message pyperclip_error func w =
     (Raise (RuntimeError no_env_message), w2)) /\
  (forall e0, active w = Some e0 ->
   create_clipboard_cmd format_size no_env_message pyperclip_error func w =
     (Ok tt, print_exc (log_to e0 ("An unexpected error occurred: " ++ pyperclip_error) w2))).
Proof.
  pose proof (PipelineFacts.with_env_restores_active func w) as Ha2.
  rewrite Henv in Ha2. simpl in Ha2.
  unfold create_clipboard_cmd, with_error, with_print, with_clipboard, with_logging,
    bind, current.
  rewrite Henv, Hc.
  destruct (String.eqb_spec c "") as [->|_]; [done|].
  unfold pyperclip_copy. rewrite Hav.
  split.
  - intros Ha. simpl. rewrite Ha2, Ha. reflexivity.
  - intros e0 Ha. simpl. rewrite Ha2, Ha. reflexivity.
Qed.

Lemma clipboard_failure_skips_printing_witness :
  with_env ok_command world_no_clip =
    (Ok (mkExecutionResult (Some "ctx") 1), (with_env ok_command world_no_clip).2) /\
  clipboard_available (with_env ok_command world_no_clip).2 = false /\
  create_clipboard_cmd format_size_bytes "no environment" "no copy mechanism"
    ok_command world_no_clip =
    (Raise (RuntimeError "no environment"), (with_env ok_command world_no_clip).2).
Proof.
  assert (Henv : with_env ok_command world_no_clip =
            (Ok (mkExecutionResult (Some "ctx") 1), (with_env ok_command world_no_clip).2))
    by reflexivity.
  split; [exact Henv|]. split; [reflexivity|].
  apply (proj1 (clipboard_failure_skips_printing format_size_bytes "no environment"
                  "no copy mechanism" ok_command world_no_clip _ _ "ctx" Henv eq_refl
                  ltac:(discriminate) eq_refl)).
  reflexivity.
Defined.

End PipelineWrappers.

(** ** Distinctness of the sampled files *)
Module SamplingDistinct.
Import ContextGen Samples.

Lemma insert_sorted_perm (x : string) (l : list string) :
  insert_sorted x l ≡ₚ x :: l.
Proof.
  induction l as [|y l IH]; simpl; [done|].
  destruct (str_ltb y x); [|done].
  rewrite IH. by constructor.
Qed.

Lemma sorted_perm (l : list string) : sorted l ≡ₚ l.
Proof.
  induction l as [|x l IH]; simpl; [done|].
  by rewrite insert_sorted_perm, IH.
Qed.

(** One step of the pool branch: the live prefix of length [m] is the
    picked element plus the next, shorter live prefix. *)
Lemma take_pool_step {A} (l : list A) (m j : nat) (x last : A) :
  j < m -> l !! j = Some x -> l !! (m - 1) = Some last ->
  take m l ≡ₚ x :: take (m - 1) (<[j := last]> l).
Proof.
  intros Hj Hx Hlast.
  destruct m as [|m']; [lia|].
  replace (S m' - 1) with m' in * by lia.
  rewrite (take_S_r l m' last Hlast).
  destruct (decide (j = m')) as [->|Hne].
  - assert (x = last) as -> by congruence.
    rewrite (list_insert_id l m' last Hlast).
    by rewrite Permutation_app_comm.
  - rewrite take_insert_lt by lia.
    assert (Hk : take m' l !! j = Some x) by (rewrite lookup_take_lt by lia; done).
    assert (Hlen : j < length (take m' l)) by (apply lookup_lt_Some in Hk; done).
    rewrite (insert_take_drop (take m' l) j last Hlen).
    rewrite <-(take_drop_middle (take m' l) j x Hk) at 1.
    solve_Permutation.
Qed.

Lemma pool_loop_nodup {A} (rem : nat) (pool : list A) (n i : nat)
    (draws : list nat) (out : list A) :
  length pool = n -> i + rem <= n -> NoDup (take (n - i) pool) ->
  pool_loop pool n i rem draws = Some out ->
  NoDup out /\ (forall x, x ∈ out -> x ∈ take (n - i) pool).
Proof.
  revert pool i draws out.
  induction rem as [|rem IH]; intros pool i draws out Hlen Hbound Hnd H; simpl in H.
  - injection H as <-. split; [constructor|]. intros x Hx. inversion Hx.
  - destruct draws as [|d ds]; simpl in H; [discriminate|].
    set (j := d mod (n - i)) in *.
    assert (Hj : j < n - i) by (apply Nat.mod_upper_bound; lia).
    destruct (pool !! j) as [x|] eqn:Hx; [|discriminate].
    destruct (pool !! (n - i - 1)) as [last|] eqn:Hlast; [|discriminate].
    destruct (pool_loop (<[j:=last]> pool) n (S i) rem ds) as [r|] eqn:Hr;
      [|discriminate].
    injection H as <-.
    pose proof (take_pool_step pool (n - i) j x last Hj Hx Hlast) as Hperm.
    rewrite Hperm in Hnd. apply NoDup_cons in Hnd as [Hxnot Hnd'].
    replace (n - i - 1) with (n - S i) in Hxnot, Hnd', Hperm by lia.
    destruct (IH (<[j:=last]> pool) (S i) ds r ltac:(by rewrite length_insert)
                 ltac:(lia) Hnd' Hr)
      as [Hrnd Hrin].
    split.
    + apply NoDup_cons. split; [|done]. intros Hxr. by apply Hxnot, Hrin.
    + intros z Hz. rewrite Hperm. apply elem_of_cons in Hz as [->|Hz].
      * by apply elem_of_cons; left.
      * apply elem_of_cons; right. by apply Hrin.
Qed.

Lemma draw_fresh_not_selected (n : nat) (selected draws : list nat) (j : nat)
    (ds : list nat) :
  draw_fresh n selected draws = Some (j, ds) -> j ∉ selected.
Proof.
  induction draws as [|d draws IH]; simpl; [discriminate|].
  case_decide as Hin; [exact IH|]. intros H. by injection H as <- _.
Qed.

Lemma set_loop_nodup {A} (rem : nat) (population : list A) (n : nat)
    (selected draws : list nat) (out : list A) :
  NoDup population ->
  set_loop population n selected rem draws = Some out ->
  NoDup out /\
  (forall x, x ∈ out -> exists j, population !! j = Some x /\ j ∉ selected).
Proof.
  intros Hnd. revert selected draws out.
  induction rem as [|rem IH]; intros selected draws out H; simpl in H.
  - injection H as <-. split; [constructor|]. intros x Hx. inversion Hx.
  - destruct (draw_fresh n selected draws) as [[j ds]|] eqn:Hd; [|discriminate].
    apply draw_fresh_not_selected in Hd.
    destruct (population !! j) as [x|] eqn:Hx; [|discriminate].
    destruct (set_loop population n (j :: selected) rem ds) as [r|] eqn:Hr;
      [|discriminate].
    injection H as <-.
    destruct (IH _ _ _ Hr) as [Hrnd Hrin].
    split.
    + apply NoDup_cons. split; [|done].
      intros Hxr. destruct (Hrin x Hxr) as (j' & Hj' & Hnot).
      pose proof (NoDup_lookup _ _ _ _ Hnd Hx Hj') as ->.
      apply Hnot, elem_of_cons. by left.
    + intros z Hz. apply elem_of_cons in Hz as [->|Hz]; [by exists j|].
      destruct (Hrin z Hz) as (j' & Hj' & Hnot).
      exists j'. split; [done|]. intros Hin. apply Hnot, elem_of_cons. by right.
Qed.

(** [random.sample] of a duplicate-free population picks distinct
    elements. *)
Lemma random_sample_nodup {A} (population : list A) (k : nat) (draws : list nat)
    (out : list A) :
  NoDup population -> random_sample population k draws = Some out -> NoDup out.
Proof.
  intros Hnd. unfold random_sample.
  destruct (Nat.ltb (length population) k) eqn:Hk; [discriminate|].
  apply Nat.ltb_ge in Hk.
  destruct (Nat.leb (length population) (setsize k)).
  - intros H. eapply pool_loop_nodup in H as [H _]; [exact H | done | lia |].
    by rewrite Nat.sub_0_r, take_ge.
  - intros H. by eapply set_loop_nodup in H as [H _].
Qed.

(** [sample_file_abs] returns exactly [min(2, d)] distinct paths, where
    [d] is the number of distinct project files not fully included. *)
Theorem sample_file_abs_distinct_min2 (project_files full_abs : list string)
    (draws : list nat) (out : list string)
    (Hs : sample_file_abs project_files full_abs draws = Some out) :
  NoDup out /\ length out = Nat.min 2 (length (set_minus project_files full_abs)).
Proof.
  unfold sample_file_abs in Hs.
  pose proof (SamplingFacts.random_sample_spec _ _ _ _ Hs) as [Hlen _].
  split.
  - eapply random_sample_nodup; [|exact Hs].
    rewrite sorted_perm. apply NoDup_remove_dups.
  - rewrite Hlen. by rewrite (Permutation_length (sorted_perm _)).
Qed.

Lemma sample_file_abs_distinct_min2_witness :
  sample_file_abs project_files_4 ["/root/a.py"] [1; 0] = Some ["/root/c.py"; "/root/b.py"] /\
  (NoDup ["/root/c.py"; "/root/b.py"] /\
   length ["/root/c.py"; "/root/b.py"] =
     Nat.min 2 (length (set_minus project_files_4 ["/root/a.py"]))).
Proof.
  split; [reflexivity|].
  apply (sample_file_abs_distinct_min2 project_files_4 ["/root/a.py"] [1; 0]).
  reflexivity.
Defined.

End SamplingDistinct.

(** ** What a run of [ProjectSetup.initialize] leaves behind *)
Module SetupPost.
Import Setup Samples.

Lemma io_bind_Some {A B} (m : IO A) (k : A -> IO B) (fs fs2 : gmap string string)
    (b : B) :
  io_bind m k fs = (Some b, fs2) ->
  exists a fs1, m fs = (Some a, fs1) /\ k a fs1 = (Some b, fs2).
Proof. unfold io_bind. destruct (m fs) as [[a|] fs1]; [eauto | discriminate]. Qed.

Lemma write_text_Some (p t : string) (fs fs' : gmap string string) (a : unit) :
  write_text p t fs = (Some a, fs') -> fs' = <[p := t]> fs.
Proof. unfold write_text. by injection 1. Qed.

Lemma create_absent_Some (p d : string) (fs fs' : gmap string string) (a : unit) :
  io_bind (path_exists p) (fun e => when (negb e) (write_text p d)) fs = (Some a, fs') ->
  fs' !! p = Some (default d (fs !! p)) /\ (forall q, q <> p -> fs' !! q = fs !! q).
Proof.
  unfold io_bind, path_exists; simpl.
  case_bool_decide as Hb; simpl.
  - injection 1 as _ <-. destruct Hb as [t E]. by rewrite E.
  - injection 1 as _ <-. apply eq_None_not_Some in Hb. rewrite Hb.
    split; [by rewrite lookup_insert_eq|].
    intros q Hq. by rewrite lookup_insert_ne.
Qed.

Lemma config_step_Some (layout : ProjectLayout) (needs_update : bool) (dc : string)
    (fs fs' : gmap string string) (a : unit) :
  _create_or_update_config_file layout needs_update dc fs = (Some a, fs') ->
  fs' !! config_path layout =
    (if needs_update then Some dc else Some (default dc (fs !! config_path layout))) /\
  (forall q, q <> config_path layout -> fs' !! q = fs !! q).
Proof.
  unfold _create_or_update_config_file, _create_config_file, io_bind, path_exists; simpl.
  case_bool_decide as Hb; simpl.
  - destruct Hb as [t E].
    destruct needs_update; simpl; injection 1 as _ <-.
    + split; [by rewrite lookup_insert_eq|]. intros q Hq. by rewrite lookup_insert_ne.
    + by rewrite E.
  - apply eq_None_not_Some in Hb. rewrite Hb.
    injection 1 as _ <-. split; [by rewrite lookup_insert_eq; destruct needs_update|].
    intros q Hq. by rewrite lookup_insert_ne.
Qed.

Lemma copy_template_Some (rt : string -> option string) (name dest : string)
    (fs fs' : gmap string string) (a : unit) :
  _copy_template rt name dest fs = (Some a, fs') ->
  exists c, rt name = Some c /\ fs' = <[dest := c]> fs.
Proof.
  unfold _copy_template, io_bind, from_option.
  destruct (rt name) as [c|]; simpl; [|discriminate].
  injection 1 as _ <-. eauto.
Qed.

Lemma for_each_copy_Some (rt : string -> option string) (tp : string -> string)
    (names : list string) (fs fs' : gmap string string) (a : unit) :
  for_each (fun n => _copy_template rt n (tp n)) names fs = (Some a, fs') ->
  (forall q, (forall n, n ∈ names -> q <> tp n) -> fs' !! q = fs !! q) /\
  ((forall n m, tp n = tp m -> n = m) -> forall n, n ∈ names -> fs' !! tp n = rt n).
Proof.
  revert fs. induction names as [|m names IH]; intros fs H; simpl in H.
  - injection H as _ <-. split; [done|]. intros _ n Hn. inversion Hn.
  - apply io_bind_Some in H as (a1 & fs1 & H1 & H).
    apply copy_template_Some in H1 as (c & Hc & ->).
    destruct (IH _ H) as [Hframe Hwrite].
    split.
    + intros q Hq. rewrite Hframe.
      * apply lookup_insert_ne. intros Heq. apply (Hq m); [by left | done].
      * intros n Hn. apply Hq. by right.
    + intros Hinj n Hn. destruct (decide (n ∈ names)) as [Hin|Hnot].
      * by apply Hwrite.
      * apply elem_of_cons in Hn as [->|Hn]; [|done].
        rewrite Hframe; [by rewrite lookup_insert_eq|].
        intros k Hk Heq. apply Hinj in Heq as ->. done.
Qed.

Lemma update_templates_post (layout : ProjectLayout) (needs_update : bool)
    (tp : string -> string) (rt : string -> option string)
    (ct : string -> option (list string)) (fs fs' : gmap string string) (a : unit)
    (Hok : _update_templates_if_needed layout needs_update tp rt ct fs = (Some a, fs')) :
  (needs_update = false -> fs' = fs) /\
  (needs_update = true ->
   exists text names,
     fs !! config_path layout = Some text /\ ct text = Some names /\
     (forall q, (forall n, n ∈ names -> q <> tp n) -> fs' !! q = fs !! q) /\
     ((forall n m, tp n = tp m -> n = m) -> forall n, n ∈ names -> fs' !! tp n = rt n)).
Proof.
  unfold _update_templates_if_needed, when in Hok.
  destruct needs_update; split; try discriminate.
  - intros _. apply io_bind_Some in Hok as (text & fs1 & Hr & Hok).
    unfold read_file in Hr.
    destruct (fs !! config_path layout) as [t|] eqn:E; [|discriminate].
    injection Hr as -> ->.
    apply io_bind_Some in Hok as (names & fs2 & Hn & Hok).
    unfold from_option, io_ret, io_raise in Hn.
    destruct (ct text) as [l|] eqn:Ec; [|discriminate].
    injection Hn as -> ->.
    exists text, names. split; [done|]. split; [done|].
    exact (for_each_copy_Some _ _ _ _ _ _ Hok).
  - intros _. by injection Hok as _ <-.
Qed.


Lemma update_templates_frame (layout : ProjectLayout) (needs_update : bool)
    (tp : string -> string) (rt : string -> option string)
    (ct : string -> option (list string)) (fs fs' : gmap string string) (a : unit) :
  _update_templates_if_needed layout needs_update tp rt ct fs = (Some a, fs') ->
  forall q, (forall n, q <> tp n) -> fs' !! q = fs !! q.
Proof.
  intros Hok q Hq.
  destruct (update_templates_post layout needs_update tp rt ct fs fs' a Hok) as [H0 H1].
  destruct needs_update.
  - destruct (H1 eq_refl) as (text & names & _ & _ & Hframe & _).
    apply Hframe. intros n _. apply Hq.
  - by rewrite H0.
Qed.

Lemma notes_step_Some (p d : string) (fs fs' : gmap string string) (a : unit) :
  (let notes_path := p in
   let? e := path_exists notes_path in
   when (negb e) (write_text notes_path d)) fs = (Some a, fs') ->
  fs' !! p = Some (default d (fs !! p)) /\ (forall q, q <> p -> fs' !! q = fs !! q).
Proof. cbv zeta. apply create_absent_Some. Qed.

(** [_update_templates_if_needed]: without [needs_update] nothing is
    touched; with it, a successful run has read the template names from
    the config file and left every listed template at its destination
    with the packaged text, and no other file changed. *)
Theorem update_templates_copies_listed (layout : ProjectLayout) (needs_update : bool)
    (tp : string -> string) (rt : string -> option string)
    (ct : string -> option (list string)) (fs fs' : gmap string string) (a : unit)
    (Hok : _update_templates_if_needed layout needs_update tp rt ct fs = (Some a, fs')) :
  (needs_update = false -> fs' = fs) /\
  (needs_update = true ->
   exists text names,
     fs !! config_path layout = Some text /\ ct text = Some names /\
     (forall q, (forall n, n ∈ names -> q <> tp n) -> fs' !! q = fs !! q) /\
     ((forall n m, tp n = tp m -> n = m) -> forall n, n ∈ names -> fs' !! tp n = rt n)).
Proof. exact (update_templates_post layout needs_update tp rt ct fs fs' a Hok). Qed.

(** [ProjectSetup.initialize], on success and when its six target paths
    are distinct and no template is copied onto one of them: the config
    is rewritten when an update is due and otherwise created only when
    missing; the state store and both notes files are created only when
    missing; the state file and the prompt are always written; with an
    update due, every template named in the freshly written default
    config is copied; and no other file is touched. *)
Theorem initialize_postcondition (layout : ProjectLayout) (needs_update : bool)
    (tp : string -> string) (rt : string -> option string)
    (ct : string -> option (list string)) (dc ds dn : string)
    (fs fs' : gmap string string) (a : unit)
    (Hd : NoDup [config_path layout; state_path layout; state_store_path layout;
                 prompt_path layout; project_notes_path layout; user_notes_path layout])
    (Ht : forall n, tp n ∉ [config_path layout; state_path layout; state_store_path layout;
                            prompt_path layout; project_notes_path layout;
                            user_notes_path layout])
    (Hok : initialize layout needs_update tp rt ct dc ds dn fs = (Some a, fs')) :
  fs' !! config_path layout =
    (if needs_update then Some dc else Some (default dc (fs !! config_path layout))) /\
  fs' !! state_store_path layout = Some (default ds (fs !! state_store_path layout)) /\
  fs' !! state_path layout = Some dn /\
  fs' !! prompt_path layout = rt "lc-prompt.md" /\
  fs' !! project_notes_path layout =
    Some (default project_notes_text (fs !! project_notes_path layout)) /\
  fs' !! user_notes_path layout =
    Some (default user_notes_text (fs !! user_notes_path layout)) /\
  (needs_update = false ->
   forall q, q ∉ [config_path layout; state_path layout; state_store_path layout;
                  prompt_path layout; project_notes_path layout; user_notes_path layout] ->
     fs' !! q = fs !! q) /\
  (needs_update = true ->
   exists names, ct dc = Some names /\
     (forall q, q ∉ [config_path layout; state_path layout; state_store_path layout;
                     prompt_path layout; project_notes_path layout; user_notes_path layout] ->
        (forall n, n ∈ names -> q <> tp n) -> fs' !! q = fs !! q) /\
     ((forall n m, tp n = tp m -> n = m) -> forall n, n ∈ names -> fs' !! tp n = rt n)).
Proof.
  unfold initialize in Hok.
  apply io_bind_Some in Hok as (a1 & fs1 & H1 & Hok).
  apply io_bind_Some in Hok as (a2 & fs2 & H2 & Hok).
  apply io_bind_Some in Hok as (a3 & fs3 & H3 & Hok).
  apply io_bind_Some in Hok as (a4 & fs4 & H4 & Hok).
  apply io_bind_Some in Hok as (a5 & fs5 & H5 & Hok).
  apply io_bind_Some in Hok as (a6 & fs6 & H6 & H7).
  apply config_step_Some in H1 as [C1 F1].
  unfold _create_curr_ctx_file in H2. apply create_absent_Some in H2 as [C2 F2].
  pose proof (update_templates_frame _ _ _ _ _ _ _ _ H3) as F3.
  unfold create_state_file in H4. apply write_text_Some in H4 as ->.
  apply copy_template_Some in H5 as (c & Hc & ->).
  unfold _create_project_notes_file in H6. apply notes_step_Some in H6 as [C6 F6].
  unfold _create_user_notes_file in H7. apply notes_step_Some in H7 as [C7 F7].
  rewrite !NoDup_cons, !not_elem_of_cons in Hd. destruct_and! Hd.
  assert (Htn : forall n,
    tp n <> config_path layout /\ tp n <> state_path layout /\
    tp n <> state_store_path layout /\ tp n <> prompt_path layout /\
    tp n <> project_notes_path layout /\ tp n <> user_notes_path layout).
  { intros n. specialize (Ht n). rewrite !not_elem_of_cons in Ht. naive_solver. }
  assert (N : forall p, (forall n, p <> tp n) -> p <> state_path layout ->
                p <> prompt_path layout -> p <> project_notes_path layout ->
                p <> user_notes_path layout -> fs' !! p = fs2 !! p).
  { intros p Hp Hs Hpr Hn Hu. rewrite F7 by done. rewrite F6 by done.
    rewrite lookup_insert_ne by congruence. rewrite lookup_insert_ne by congruence.
    by apply F3. }
  assert (Hnt : forall p, (forall n, tp n <> p) -> forall n, p <> tp n)
    by (intros p Hp n Heq; by apply (Hp n)).
  split; [|split; [|split; [|split; [|split; [|split; [|split]]]]]].
  - rewrite N; try done; [|apply Hnt; intros n; apply Htn].
    rewrite F2 by congruence. exact C1.
  - rewrite N; try congruence; [|apply Hnt; intros n; apply Htn].
    rewrite C2. rewrite F1 by congruence. done.
  - rewrite F7 by congruence. rewrite F6 by congruence.
    rewrite lookup_insert_ne by congruence. by rewrite lookup_insert_eq.
  - rewrite F7 by congruence. rewrite F6 by congruence.
    by rewrite lookup_insert_eq.
  - rewrite F7 by congruence. rewrite C6.
    rewrite lookup_insert_ne by congruence. rewrite lookup_insert_ne by congruence.
    rewrite F3 by (apply Hnt; intros n; apply Htn).
    rewrite F2 by congruence. rewrite F1 by congruence. done.
  - rewrite C7. rewrite F6 by congruence.
    rewrite lookup_insert_ne by congruence. rewrite lookup_insert_ne by congruence.
    rewrite F3 by (apply Hnt; intros n; apply Htn).
    rewrite F2 by congruence. rewrite F1 by congruence. done.
  - intros Hnu q Hq. subst needs_update.
    destruct (update_templates_post _ _ _ _ _ _ _ _ H3) as [Hnone _].
    rewrite !not_elem_of_cons in Hq. destruct_and! Hq.
    rewrite F7 by done. rewrite F6 by done.
    rewrite lookup_insert_ne by congruence. rewrite lookup_insert_ne by congruence.
    rewrite Hnone by done. rewrite F2 by done. by apply F1.
  - intros Hnu. subst needs_update.
    destruct (update_templates_post _ _ _ _ _ _ _ _ H3) as [_ Hup].
    destruct (Hup eq_refl) as (text & names & Htext & Hnames & Hframe & Hw).
    rewrite F2, C1 in Htext by congruence. injection Htext as <-.
    exists names. split; [done|]. split.
    + intros q Hq Hqt. rewrite !not_elem_of_cons in Hq. destruct_and! Hq.
      rewrite F7 by done. rewrite F6 by done.
      rewrite lookup_insert_ne by congruence. rewrite lookup_insert_ne by congruence.
      rewrite Hframe by done. rewrite F2 by done. by apply F1.
    + intros Hinj n Hn.
      destruct (Htn n) as (? & ? & ? & ? & ? & ?).
      rewrite F7 by done. rewrite F6 by done.
      rewrite lookup_insert_ne by congruence. rewrite lookup_insert_ne by congruence.
      by apply Hw.
Qed.

Section Untouched.

Variable p : string.

(** A run of [m] never changes the file at [p]. *)
Definition untouched {A} (m : IO A) : Prop := forall fs, (m fs).2 !! p = fs !! p.

Lemma untouched_ret {A} (x : A) : untouched (io_ret x).
Proof. by intros fs. Qed.

Lemma untouched_from_option {A} (o : option A) : untouched (from_option o).
Proof. destruct o; by intros fs. Qed.

Lemma untouched_bind {A B} (m : IO A) (k : A -> IO B) :
  untouched m -> (forall x, untouched (k x)) -> untouched (io_bind m k).
Proof.
  intros Hm Hk fs. unfold io_bind. specialize (Hm fs).
  destruct (m fs) as [[x|] fs1]; simpl in *; [by rewrite Hk | done].
Qed.

Lemma untouched_write_other (q t : string) : q <> p -> untouched (write_text q t).
Proof. intros Hq fs. simpl. by rewrite lookup_insert_ne. Qed.

Lemma untouched_when (b : bool) (m : IO unit) : untouched m -> untouched (when b m).
Proof. destruct b; [done | intros _; apply untouched_ret]. Qed.

Lemma untouched_for_each {A} (f : A -> IO unit) (l : list A) :
  (forall x, untouched (f x)) -> untouched (for_each f l).
Proof.
  intros Hf. induction l as [|x l IH]; simpl; [apply untouched_ret|].
  apply untouched_bind; [apply Hf | intros _; exact IH].
Qed.

(** A run of [m] raises and leaves the file at [p] as it was. *)
Definition fails_keeping {A} (m : IO A) : Prop :=
  forall fs, (m fs).1 = None /\ (m fs).2 !! p = fs !! p.

Lemma fails_keeping_bind {A B} (m : IO A) (k : A -> IO B) :
  untouched m -> (forall x, fails_keeping (k x)) -> fails_keeping (io_bind m k).
Proof.
  intros Hm Hk fs. unfold io_bind. specialize (Hm fs).
  destruct (m fs) as [[x|] fs1]; simpl in *.
  - destruct (Hk x fs1) as [H1 H2]. split; [done|]. by rewrite H2.
  - done.
Qed.

End Untouched.

(** [ProjectSetup.initialize] when the packaged [lc-prompt.md] cannot be
    read: the run raises, and only the config, the state store, the
    state file and template destinations may have been written; the
    prompt and both notes files are left as they were. *)
Theorem initialize_missing_prompt_raises (layout : ProjectLayout) (needs_update : bool)
    (tp : string -> string) (rt : string -> option string)
    (ct : string -> option (list string)) (dc ds dn : string)
    (fs : gmap string string)
    (Hr : rt "lc-prompt.md" = None) :
  (initialize layout needs_update tp rt ct dc ds dn fs).1 = None /\
  (forall p, p <> config_path layout -> p <> state_store_path layout ->
     p <> state_path layout -> (forall n, p <> tp n) ->
     (initialize layout needs_update tp rt ct dc ds dn fs).2 !! p = fs !! p).
Proof.
  assert (Hall : forall p, (p <> config_path layout -> p <> state_store_path layout ->
     p <> state_path layout -> (forall n, p <> tp n) ->
     fails_keeping p (initialize layout needs_update tp rt ct dc ds dn))).
  { intros p Hc Hs Hst Ht. unfold initialize.
    apply fails_keeping_bind.
    { unfold _create_or_update_config_file, _create_config_file.
      apply untouched_bind; [by intros fs' | intros e].
      apply untouched_when, untouched_write_other. congruence. }
    intros _. apply fails_keeping_bind.
    { unfold _create_curr_ctx_file.
      apply untouched_bind; [by intros fs' | intros e].
      apply untouched_when, untouched_write_other. congruence. }
    intros _. apply fails_keeping_bind.
    { unfold _update_templates_if_needed. apply untouched_when.
      apply untouched_bind; [intros fs'; unfold read_file; by destruct (fs' !! _) | intros t].
      apply untouched_bind; [apply untouched_from_option | intros names].
      apply untouched_for_each. intros n. unfold _copy_template.
      apply untouched_bind; [apply untouched_from_option | intros c].
      apply untouched_write_other. intros Heq. by apply (Ht n). }
    intros _. apply fails_keeping_bind.
    { apply untouched_write_other. congruence. }
    intros _ fs'. unfold io_bind, _copy_template, from_option. rewrite Hr. done. }
  split.
  - unfold initialize, io_bind.
    destruct (_create_or_update_config_file _ _ _ fs) as [[[]|] ?] eqn:E1; [|done].
    destruct (_create_curr_ctx_file _ _ _) as [[[]|] ?] eqn:E2; [|done].
    destruct (_update_templates_if_needed _ _ _ _ _ _) as [[[]|] ?] eqn:E3; [|done].
    destruct (create_state_file _ _ _) as [[[]|] ?] eqn:E4; [|done].
    unfold _copy_template, io_bind, from_option. rewrite Hr. done.
  - intros p Hc Hs Hst Ht. by destruct (Hall p Hc Hs Hst Ht fs).
Qed.

Lemma update_templates_copies_listed_witness :
  let fs0 := <["/p/.llm-context/config.toml" := "config"]> fs_sample in
  let fs' := (_update_templates_if_needed layout_sample true template_path_sample
                (fun n => Some n) (fun _ => Some ["lc-context.j2"]) fs0).2 in
  _update_templates_if_needed layout_sample true template_path_sample
    (fun n => Some n) (fun _ => Some ["lc-context.j2"]) fs0 = (Some tt, fs') /\
  fs' !! template_path_sample "lc-context.j2" = Some "lc-context.j2".
Proof.
  intros fs0 fs'.
  assert (Hok : _update_templates_if_needed layout_sample true template_path_sample
                  (fun n => Some n) (fun _ => Some ["lc-context.j2"]) fs0 = (Some tt, fs'))
    by (vm_compute; reflexivity).
  split; [exact Hok|].
  destruct (update_templates_copies_listed layout_sample true template_path_sample
              (fun n => Some n) (fun _ => Some ["lc-context.j2"]) fs0 fs' tt Hok)
    as [_ Hup].
  destruct (Hup eq_refl) as (text & names & _ & Hn & _ & Hw).
  injection Hn as <-. apply Hw.
  - intros n m H. unfold template_path_sample in H. simpl in H.
    repeat (injection H as H). exact H.
  - by left.
Defined.

Lemma initialize_postcondition_witness :
  let fs' := (initialize layout_sample true template_path_sample (fun n => Some n)
                (fun _ => Some ["lc-context.j2"]) "config" "selections" "state"
                fs_sample).2 in
  fs' !! project_notes_path layout_sample = Some "my notes" /\
  fs' !! prompt_path layout_sample = Some "lc-prompt.md" /\
  fs' !! "/other" = None.
Proof.
  intros fs'.
  assert (Hok : initialize layout_sample true template_path_sample (fun n => Some n)
                  (fun _ => Some ["lc-context.j2"]) "config" "selections" "state"
                  fs_sample = (Some tt, fs'))
    by (vm_compute; reflexivity).
  assert (Hd : NoDup [config_path layout_sample; state_path layout_sample;
                      state_store_path layout_sample; prompt_path layout_sample;
                      project_notes_path layout_sample; user_notes_path layout_sample])
    by (simpl; apply (bool_decide_unpack _); vm_compute; reflexivity).
  assert (Ht : forall n, template_path_sample n ∉
                 [config_path layout_sample; state_path layout_sample;
                  state_store_path layout_sample; prompt_path layout_sample;
                  project_notes_path layout_sample; user_notes_path layout_sample]).
  { intros n. unfold template_path_sample. simpl.
    rewrite !not_elem_of_cons. repeat split; try discriminate.
    apply not_elem_of_nil. }
  destruct (initialize_postcondition layout_sample true template_path_sample
              (fun n => Some n) (fun _ => Some ["lc-context.j2"]) "config" "selections"
              "state" fs_sample fs' tt Hd Ht Hok)
    as (_ & _ & _ & Hp & Hn & _ & _ & Hup).
  split; [rewrite Hn; reflexivity|]. split; [exact Hp|].
  destruct (Hup eq_refl) as (names & Hnames & Hq & _).
  rewrite Hq; [reflexivity| |].
  - simpl. rewrite !not_elem_of_cons. repeat split; try discriminate.
    apply not_elem_of_nil.
  - intros n _. unfold template_path_sample. simpl. discriminate.
Defined.

Lemma initialize_missing_prompt_raises_witness :
  resource_no_prompt "lc-prompt.md" = None /\
  (initialize layout_sample true template_path_sample resource_no_prompt
     (fun _ => Some ["lc-context.j2"]) "config" "selections" "state" fs_sample).1 = None /\
  (initialize layout_sample true template_path_sample resource_no_prompt
     (fun _ => Some ["lc-context.j2"]) "config" "selections" "state" fs_sample).2
     !! user_notes_path layout_sample = None.
Proof.
  assert (Hr : resource_no_prompt "lc-prompt.md" = None) by reflexivity.
  destruct (initialize_missing_prompt_raises layout_sample true template_path_sample
              resource_no_prompt (fun _ => Some ["lc-context.j2"]) "config" "selections"
              "state" fs_sample Hr) as [H1 H2].
  split; [exact Hr|]. split; [exact H1|].
  rewrite H2; [reflexivity|..];
    intros; unfold template_path_sample; simpl; discriminate.
Defined.

End SetupPost.
